(** * Boost.Hana [fwd/type.hpp]: types as values and lifted metafunctions

    A shallow embedding of the declarations of
    [include/boost/hana/fwd/type.hpp].  The header is pure compile-time
    C++: what it computes are C++ types, so the embedding has

    - a universe [ctype] of C++ types, closed under the class templates
      the header declares ([_type<T>::_], [_template<f>], ...);
    - objects and expressions (an object, its constness, its value
      category), because the header's unary [+] and the by-value call
      operators are about exactly that: an argument initialises a parameter
      object, by the copy or move constructor of its class unless it is a
      prvalue;
    - the nested-name lookups [X::type] and [X::template apply<xs...>],
      which fail ([None]) where the C++ program is ill-formed;
    - the call operators of the lifted function objects.

    User code (the templates handed to the lifters) is a parameter: a record
    of [declarations]. *)

From Stdlib Require Import List String ZArith Bool Lia.
Import ListNotations.
Open Scope string_scope.
Open Scope Z_scope.

Set Implicit Arguments.
Set Warnings "-register-all".

(* ================================================================== *)
(** ** The universe of C++ types *)

Module Cpp.

(** The fundamental types the examples of the header use. *)
Inductive fundamental : Type :=
| void_ | bool_ | char_ | int_ | unsigned_ | long_ | float_ | double_.

(** A template template-argument for [template <typename ...> class f]:
    a class template or an alias template, by name. *)
Inductive tmpl : Type :=
| class_template (name : string)
| alias_template (name : string).

(** C++ types.  [_type T] stands for the class [_type<T>::_] (the type of
    the object [type<T>]); [_template_apply f xs] for the member class
    [_template<f>::apply<xs...>]; the other underscored constructors for the
    class templates of the same name in the header. *)
Inductive ctype : Type :=
| Fundamental (b : fundamental)
| Struct (name : string)
| Inst (name : string) (args : list ctype)
| Pointer (t : ctype)
| Const (t : ctype)
| LRef (t : ctype)
| RRef (t : ctype)
| integral_constant (t : ctype) (v : Z)
| _type (T : ctype)
| _decltype
| _template (f : tmpl)
| _template_apply (f : tmpl) (xs : list ctype)
| _metafunction (f : tmpl)
| _metafunction_class (f : ctype)
| _trait (f : tmpl)
| _trait_ (f : tmpl).

(** The induction principle that goes through the argument lists. *)
Section ctype_nested_ind.
Variable P : ctype -> Prop.
Hypothesis HFund : forall b, P (Fundamental b).
Hypothesis HStruct : forall n, P (Struct n).
Hypothesis HInst : forall n args, Forall P args -> P (Inst n args).
Hypothesis HPointer : forall t, P t -> P (Pointer t).
Hypothesis HConst : forall t, P t -> P (Const t).
Hypothesis HLRef : forall t, P t -> P (LRef t).
Hypothesis HRRef : forall t, P t -> P (RRef t).
Hypothesis HIc : forall t v, P t -> P (integral_constant t v).
Hypothesis HType : forall T, P T -> P (_type T).
Hypothesis HDecltype : P _decltype.
Hypothesis HTemplate : forall f, P (_template f).
Hypothesis HTemplateApply : forall f xs, Forall P xs -> P (_template_apply f xs).
Hypothesis HMetafunction : forall f, P (_metafunction f).
Hypothesis HMetafunctionClass : forall f, P f -> P (_metafunction_class f).
Hypothesis HTrait : forall f, P (_trait f).
Hypothesis HTrait_ : forall f, P (_trait_ f).

Fixpoint ctype_nested_ind (t : ctype) : P t :=
    let all := fix all (l : list ctype) : Forall P l :=
      match l with
      | [] => Forall_nil P
      | x :: l' => Forall_cons x (ctype_nested_ind x) (all l')
      end in
    match t with
    | Fundamental b => HFund b
    | Struct n => HStruct n
    | Inst n args => HInst n (all args)
    | Pointer t' => HPointer (ctype_nested_ind t')
    | Const t' => HConst (ctype_nested_ind t')
    | LRef t' => HLRef (ctype_nested_ind t')
    | RRef t' => HRRef (ctype_nested_ind t')
    | integral_constant t' v => HIc v (ctype_nested_ind t')
    | _type T => HType (ctype_nested_ind T)
    | _decltype => HDecltype
    | _template f => HTemplate f
    | _template_apply f xs => HTemplateApply f (all xs)
    | _metafunction f => HMetafunction f
    | _metafunction_class f => HMetafunctionClass (ctype_nested_ind f)
    | _trait f => HTrait f
    | _trait_ f => HTrait_ f
    end.
End ctype_nested_ind.

Definition fundamental_eqb (a b : fundamental) : bool :=
  match a, b with
  | void_, void_ | bool_, bool_ | char_, char_ | int_, int_
  | unsigned_, unsigned_ | long_, long_ | float_, float_
  | double_, double_ => true
  | _, _ => false
  end.

Definition tmpl_eqb (f g : tmpl) : bool :=
  match f, g with
  | class_template n, class_template m => String.eqb n m
  | alias_template n, alias_template m => String.eqb n m
  | _, _ => false
  end.

(** Identity of types, as the compiler decides it. *)
Fixpoint ctype_eqb (a b : ctype) {struct a} : bool :=
  let list_eqb := fix list_eqb (l1 l2 : list ctype) {struct l1} : bool :=
    match l1, l2 with
    | [], [] => true
    | x :: l1', y :: l2' => ctype_eqb x y && list_eqb l1' l2'
    | _, _ => false
    end in
  match a, b with
  | Fundamental x, Fundamental y => fundamental_eqb x y
  | Struct n, Struct m => String.eqb n m
  | Inst n xs, Inst m ys => String.eqb n m && list_eqb xs ys
  | Pointer x, Pointer y => ctype_eqb x y
  | Const x, Const y => ctype_eqb x y
  | LRef x, LRef y => ctype_eqb x y
  | RRef x, RRef y => ctype_eqb x y
  | integral_constant x v, integral_constant y w => ctype_eqb x y && Z.eqb v w
  | _type x, _type y => ctype_eqb x y
  | _decltype, _decltype => true
  | _template f, _template g => tmpl_eqb f g
  | _template_apply f xs, _template_apply g ys => tmpl_eqb f g && list_eqb xs ys
  | _metafunction f, _metafunction g => tmpl_eqb f g
  | _metafunction_class x, _metafunction_class y => ctype_eqb x y
  | _trait f, _trait g => tmpl_eqb f g
  | _trait_ f, _trait_ g => tmpl_eqb f g
  | _, _ => false
  end.

Fixpoint ctypes_eqb (l1 l2 : list ctype) : bool :=
  match l1, l2 with
  | [], [] => true
  | x :: l1', y :: l2' => ctype_eqb x y && ctypes_eqb l1' l2'
  | _, _ => false
  end.

End Cpp.

Unset Implicit Arguments.

(* ================================================================== *)
(** ** Objects, expressions and ill-formed programs *)

Module Hana.
Import Cpp.

(** An ill-formed construct (a substitution failure, a missing member) is
    [None]: the header has no other error path. *)
Definition bind {A B} (m : option A) (k : A -> option B) : option B :=
  match m with
  | Some a => k a
  | None => None
  end.

Notation "x <- m ;; k" := (bind m (fun x => k))
  (at level 61, m at next level, right associativity).

Fixpoint traverse {A B} (f : A -> option B) (l : list A) : option (list B) :=
  match l with
  | [] => Some []
  | a :: l' => b <- f a ;; bs <- traverse f l' ;; Some (b :: bs)
  end.

(** An object: its class (or fundamental) type and the values of its data
    members.  The classes of the header are empty. *)
Record object : Type := mkObject { obj_type : ctype; obj_repr : list Z }.

Inductive expression_form : Type :=
| id_expression   (* the name of a variable: an lvalue *)
| lvalue          (* e.g. a call to a function returning T& *)
| xvalue          (* e.g. a call to a function returning T&& *)
| prvalue.        (* e.g. a call to a function returning T *)

Record expression : Type :=
  mkExpr { designates : object; is_const : bool; form : expression_form }.

Definition cv (c : bool) (t : ctype) : ctype := if c then Const t else t.

(** [decltype(e)]: the declared type for the name of a variable, and a
    reference type for the other glvalues. *)
Definition decltype (e : expression) : ctype :=
  let t := cv (is_const e) (obj_type (designates e)) in
  match form e with
  | id_expression => t
  | lvalue => LRef t
  | xvalue => RRef t
  | prvalue => t
  end.

Definition remove_reference (t : ctype) : ctype :=
  match t with
  | LRef u | RRef u => u
  | _ => t
  end.

Fixpoint remove_cv (t : ctype) : ctype :=
  match t with
  | Const u => remove_cv u
  | _ => t
  end.

Definition decay (t : ctype) : ctype := remove_cv (remove_reference t).

(** The number of [const] and [_type<...>::_] layers on top of a type. *)
Fixpoint layers (t : ctype) : nat :=
  match t with
  | Const u => S (layers u)
  | _type u => S (layers u)
  | _ => O
  end.

(** The type deduced for a by-value parameter [xs] from the argument [e]
    (also the class whose members an operator applied to [e] is looked up
    in). *)
Definition deduced (e : expression) : ctype := decay (decltype e).

(** What a function whose return type is [auto] (or a class type) hands
    back on [return e;]: a prvalue copy of the object. *)
Definition returned (e : expression) : expression :=
  mkExpr (mkObject (deduced e) (obj_repr (designates e))) false prvalue.

(** [decltype((e))]: the type and value category an initialisation from [e]
    sees.  The name of a variable is an lvalue. *)
Definition initializer_type (e : expression) : ctype :=
  let t := cv (is_const e) (obj_type (designates e)) in
  match form e with
  | id_expression | lvalue => LRef t
  | xvalue => RRef t
  | prvalue => t
  end.

(** A namespace-scope [constexpr T name{};] of an empty class [T]. *)
Definition constexpr_variable (t : ctype) : expression :=
  mkExpr (mkObject t []) true id_expression.

(** ** User declarations

    What the translation unit declares besides the header.  Class types are
    [Struct] and [Inst]; the record says which class template-ids are
    well-formed, what alias templates expand to and which of them are
    declared with a parameter pack ([template <typename ...T> using ...]),
    and, per class, its nested [type], its nested [apply] template (as the
    header uses it: on a pack expansion), the result of [T{}], and whether
    an object of the class can be initialised from a glvalue of a given
    reference type ([std::is_constructible<T, From>], i.e. its copy and move
    constructors). *)
Record declarations : Type := {
  well_formed_id : string -> list ctype -> bool;
  alias_def : string -> list ctype -> option ctype;
  variadic_alias : string -> bool;
  nested_type : ctype -> option ctype;
  nested_apply : ctype -> list ctype -> option ctype;
  default_init : ctype -> option (list Z);
  is_constructible : ctype -> ctype -> bool
}.

Section Facility.
Variable D : declarations.

(** [f<xs...>] for a template template-argument [f]. *)
Definition instantiate (f : tmpl) (xs : list ctype) : option ctype :=
  match f with
  | class_template n => if well_formed_id D n xs then Some (Inst n xs) else None
  | alias_template n => alias_def D n xs
  end.

(** Whether [f<xs...>], with a pack expansion as argument list, may appear
    in the declaration of an alias template.  For an alias template [f]
    with a fixed number of parameters it may not (Core issue 1430, which the
    header cites); a class template takes it. *)
Definition accepts_pack_expansion (f : tmpl) : bool :=
  match f with
  | class_template _ => true
  | alias_template n => variadic_alias D n
  end.

(** [typename X::type].  A cv-qualified class names the class; a reference
    type has no members.
    - [_type<T>::_] has [using type = T;]
    - [_template<f>::apply<xs...>] has [using type = f<xs...>;]
    - [std::integral_constant<T, v>] has [using type = integral_constant;] *)
Fixpoint member_type (X : ctype) : option ctype :=
  match X with
  | Const t => member_type t
  | _type T => Some T
  | _template_apply f xs => instantiate f xs
  | integral_constant t v => Some (integral_constant t v)
  | Struct _ | Inst _ _ => nested_type D X
  | _ => None
  end.

(** [typename X::template apply<xs...>].
    - [_template<f>]: the member class template [apply]
    - [_metafunction<f>]: [template <typename ...xs> using apply = f<xs...>;],
      a declaration that makes the class ill-formed where [f] does not
      accept a pack expansion
    - [_metafunction_class<f>]: [using apply = typename f::template apply<xs...>;] *)
Fixpoint member_apply (X : ctype) (xs : list ctype) : option ctype :=
  match X with
  | Const t => member_apply t xs
  | _template f => Some (_template_apply f xs)
  | _metafunction f => if accepts_pack_expansion f then instantiate f xs else None
  | _metafunction_class F => member_apply F xs
  | Struct _ | Inst _ _ => nested_apply D X xs
  | _ => None
  end.

(** The data members of [T{}]; [None] where [T{}] is ill-formed. *)
Fixpoint value_init (t : ctype) : option (list Z) :=
  match t with
  | Fundamental void_ => None
  | Fundamental _ => Some [0]
  | Pointer _ => Some [0]
  | Const u => value_init u
  | LRef _ | RRef _ => None
  | Struct _ | Inst _ _ => default_init D t
  | _template_apply f xs => _ <- instantiate f xs ;; Some []
  | _metafunction f => if accepts_pack_expansion f then Some [] else None
  | _ => Some []
  end.

(** The expression [T{}]. *)
Definition braced_init (t : ctype) : option expression :=
  r <- value_init t ;; Some (mkExpr (mkObject (remove_cv t) r) false prvalue).

(** ** The declarations of the header *)

(** [struct hana { using datatype = ...; };] *)
Inductive datatype_tag : Type := Type_ | Metafunction.

Definition datatype (t : ctype) : option datatype_tag :=
  match t with
  | _type _ => Some Type_
  | _template _ | _metafunction _ | _metafunction_class _ => Some Metafunction
  | _ => None
  end.

(** [template <typename T> constexpr typename _type<T>::_ type{};] *)
Definition type (T : ctype) : expression := constexpr_variable (_type T).

(** [constexpr _ operator+() const { return *this; }], a member of
    [_type<T>::_]: a const member function without ref-qualifier, viable
    on every value category and constness of its operand. *)
Definition unary_plus (e : expression) : option expression :=
  match deduced e with
  | _type T => Some (mkExpr (mkObject (_type T) (obj_repr (designates e))) false prvalue)
  | _ => None
  end.

(** [constexpr _decltype decltype_{};] and the lifters. *)
Definition decltype_ : expression := constexpr_variable _decltype.
Definition template_ (f : tmpl) : expression := constexpr_variable (_template f).
Definition metafunction (f : tmpl) : expression := constexpr_variable (_metafunction f).
Definition metafunction_class (f : ctype) : expression :=
  constexpr_variable (_metafunction_class f).
Definition trait (f : tmpl) : expression := constexpr_variable (_trait f).
Definition trait_ (f : tmpl) : expression := constexpr_variable (_trait_ f).

(** Whether a by-value parameter (of the deduced type) can be initialised
    from the argument [e].  A prvalue initialises the parameter directly (as
    from C++17 on); a glvalue of class type goes through a constructor of the
    class: the implicit ones for the classes of the header, what the
    translation unit declares for the others.  Nothing has type [void]. *)
Definition copy_initializes (e : expression) : bool :=
  match deduced e with
  | Fundamental void_ => false
  | Struct _ | Inst _ _ =>
      match form e with
      | prvalue => true
      | _ => is_constructible D (deduced e) (initializer_type e)
      end
  | _ => true
  end.

(** The parameter object an argument initialises: a copy of the object the
    argument designates. *)
Definition parameter (e : expression) : option object :=
  if copy_initializes e
  then Some (mkObject (deduced e) (obj_repr (designates e)))
  else None.

(** The call operators: each takes its parameter objects [ps] (unnamed in
    the source) and has [xs...] for their types.

    [_decltype::operator()(T) const { return type<T>; }] *)
Definition _decltype_call (ps : list object) : option expression :=
  match ps with
  | [p] => Some (returned (type (obj_type p)))
  | _ => None
  end.

(** [_template<f>::operator()(xs...) const
       { return type<f<typename xs::type...>>; }] *)
Definition _template_call (f : tmpl) (ps : list object) : option expression :=
  ts <- traverse member_type (map obj_type ps) ;;
  R <- instantiate f ts ;;
  Some (returned (type R)).

(** [_metafunction<f>::operator()(xs...) const
       { return type<typename f<typename xs::type...>::type>; }],
    a member of a class that is ill-formed where its [apply] is. *)
Definition _metafunction_call (f : tmpl) (ps : list object) : option expression :=
  if accepts_pack_expansion f then
    ts <- traverse member_type (map obj_type ps) ;;
    F <- instantiate f ts ;;
    R <- member_type F ;;
    Some (returned (type R))
  else None.

(** [_metafunction_class<f>::operator()(xs...) const
       { return type<typename f::template apply<typename xs::type...>::type>; }] *)
Definition _metafunction_class_call (f : ctype) (ps : list object) : option expression :=
  ts <- traverse member_type (map obj_type ps) ;;
  A <- member_apply f ts ;;
  R <- member_type A ;;
  Some (returned (type R)).

(** [_trait<f>::operator()(xs...) const { return f<typename xs::type...>{}; }] *)
Definition _trait_call (f : tmpl) (ps : list object) : option expression :=
  ts <- traverse member_type (map obj_type ps) ;;
  R <- instantiate f ts ;;
  c <- braced_init R ;;
  Some (returned c).

(** [_trait_<f>::operator()(xs...) const { return f<xs...>{}; }] *)
Definition _trait__call (f : tmpl) (ps : list object) : option expression :=
  R <- instantiate f (map obj_type ps) ;;
  c <- braced_init R ;;
  Some (returned c).

(** The call expression [callee(args...)].  Every call operator of the
    header is a [const] member template taking its parameters by value: the
    arguments initialise the parameter objects, and the operator of the
    class of the callee runs on them. *)
Definition call (callee : expression) (args : list expression) : option expression :=
  ps <- traverse parameter args ;;
  match deduced callee with
  | _decltype => _decltype_call ps
  | _template f => _template_call f ps
  | _metafunction f => _metafunction_call f ps
  | _metafunction_class f => _metafunction_class_call f ps
  | _trait f => _trait_call f ps
  | _trait_ f => _trait__call f ps
  | _ => None
  end.

(** The classical (MPL) use of a [Metafunction] [f]:
    [typename decltype(f)::template apply<xs...>::type]. *)
Definition classical_apply (f : expression) (xs : list ctype) : option ctype :=
  A <- member_apply (decltype f) xs ;; member_type A.

End Facility.

(** Modelled from the spec: the [Comparable] instance of [Type], which
    [struct Type] only names ([enabled_operators : Comparable]) and another
    header of the library defines.  Two type-values are equal iff their
    represented types are identical; the instance is selected by the
    datatype of both operands, which are taken by value, and it compares the
    classes [_type<T>::_] and [_type<U>::_] of the two objects. *)
Definition equal (a b : expression) : option bool :=
  match datatype (deduced a), datatype (deduced b) with
  | Some Type_, Some Type_ => Some (ctype_eqb (deduced a) (deduced b))
  | _, _ => None
  end.

(** The law the header documents for every [Metafunction] [f]:
    [f(type<T1>, ..., type<Tn>) == type<decltype(f)::apply<T1, ..., Tn>::type>].
    Where the right-hand side is well-formed and names [R], the call is
    well-formed and its result compares equal to [type<R>]; where it is
    ill-formed, so is the call. *)
Definition Metafunction_law (D : declarations) (f : expression) (Ts : list ctype) : Prop :=
  match classical_apply D f Ts with
  | Some R => exists r, call D f (map type Ts) = Some r /\ equal r (type R) = Some true
  | None => call D f (map type Ts) = None
  end.

End Hana.

(* ================================================================== *)
(** ** A translation unit to run the header on

    The templates the documentation of the header lifts: the standard
    [std::is_same] and [std::add_pointer] (with their meaning in the C++
    standard), the aliases [std::add_pointer_t] (one parameter),
    [std::void_t] (a parameter pack) and
    [template <typename T> using add_pointer_alias = std::add_pointer<T>;],
    the variadic
    [template <typename ...> struct f;] and [struct x; struct y;], which are
    declared and never defined, a metafunction class [quote_add_pointer] in
    the Boost.MPL style, and two classes with user-declared constructors:
    [noncopyable] (copy and move constructors deleted) and [move_only]
    (copy constructor deleted). *)

Module Std.
Import Cpp Hana.

Definition bool_constant (b : bool) : ctype :=
  integral_constant (Fundamental bool_) (if b then 1 else 0).
Definition true_type : ctype := bool_constant true.
Definition false_type : ctype := bool_constant false.

Definition is_same (A B : ctype) : ctype := Inst "std::is_same" [A; B].
Definition add_pointer (T : ctype) : ctype := Inst "std::add_pointer" [T].

Definition std_well_formed_id (n : string) (xs : list ctype) : bool :=
  if String.eqb n "std::is_same" then Nat.eqb (List.length xs) 2
  else if String.eqb n "std::add_pointer" then Nat.eqb (List.length xs) 1
  else if String.eqb n "quote_add_pointer::apply" then Nat.eqb (List.length xs) 1
  else String.eqb n "f".

Definition std_alias_def (n : string) (xs : list ctype) : option ctype :=
  if String.eqb n "std::void_t" then Some (Fundamental void_)
  else match xs with
       | [T] => if String.eqb n "std::add_pointer_t"
                then Some (Pointer (remove_reference T))
                else if String.eqb n "add_pointer_alias"
                then Some (Inst "std::add_pointer" [T])
                else None
       | _ => None
       end.

Definition std_variadic_alias (n : string) : bool := String.eqb n "std::void_t".

Definition std_nested_type (X : ctype) : option ctype :=
  match X with
  | Inst n [A; B] =>
      if String.eqb n "std::is_same" then Some (bool_constant (ctype_eqb A B))
      else None
  | Inst n [T] =>
      if String.eqb n "std::add_pointer" then Some (Pointer (remove_reference T))
      else if String.eqb n "quote_add_pointer::apply"
           then Some (Pointer (remove_reference T))
      else None
  | _ => None
  end.

Definition std_nested_apply (X : ctype) (xs : list ctype) : option ctype :=
  match X with
  | Struct n =>
      if String.eqb n "quote_add_pointer" && Nat.eqb (List.length xs) 1
      then Some (Inst "quote_add_pointer::apply" xs) else None
  | _ => None
  end.

(** The classes that are defined are empty and default-constructible;
    [f<...>], [x] and [y] are incomplete. *)
Definition std_default_init (X : ctype) : option (list Z) :=
  match X with
  | Inst n _ =>
      if String.eqb n "std::is_same" || String.eqb n "std::add_pointer"
         || String.eqb n "quote_add_pointer::apply"
      then Some [] else None
  | Struct n =>
      if String.eqb n "quote_add_pointer" || String.eqb n "noncopyable"
         || String.eqb n "move_only"
      then Some [] else None
  | _ => None
  end.

(** [std::is_constructible<T, From>] for [From] a reference to (const) [T]. *)
Definition std_is_constructible (T From : ctype) : bool :=
  match T with
  | Struct n =>
      if String.eqb n "noncopyable" then false
      else if String.eqb n "move_only" then ctype_eqb From (RRef T)
      else String.eqb n "quote_add_pointer"
  | Inst n _ =>
      String.eqb n "std::is_same" || String.eqb n "std::add_pointer"
      || String.eqb n "quote_add_pointer::apply"
  | _ => false
  end.

Definition decls : declarations := {|
  well_formed_id := std_well_formed_id;
  alias_def := std_alias_def;
  variadic_alias := std_variadic_alias;
  nested_type := std_nested_type;
  nested_apply := std_nested_apply;
  default_init := std_default_init;
  is_constructible := std_is_constructible
|}.

(** The value of a standard compile-time constant [C]: that of its base
    characteristic [C::type], an [integral_constant]. *)
Definition constant_value (D : declarations) (C : ctype) : option Z :=
  match member_type D C with
  | Some (integral_constant _ v) => Some v
  | _ => None
  end.

(** Equality of two constants: that of their values. *)
Definition constant_equal (D : declarations) (a b : object) : bool :=
  match constant_value D (obj_type a), constant_value D (obj_type b) with
  | Some v, Some w => Z.eqb v w
  | _, _ => false
  end.

(** [template <typename ...> struct f; struct x; struct y;] *)
Definition f : tmpl := class_template "f".
Definition x : ctype := Struct "x".
Definition y : ctype := Struct "y".

Definition noncopyable : ctype := Struct "noncopyable".
Definition move_only : ctype := Struct "move_only".

Definition int : ctype := Fundamental int_.
Definition char_t : ctype := Fundamental char_.
Definition double : ctype := Fundamental double_.

End Std.

(* ================================================================== *)
(** ** Type identity is decided by [ctype_eqb] *)

Module CppFacts.
Import Cpp.
Set Implicit Arguments.

Lemma fundamental_eqb_eq a b : fundamental_eqb a b = true <-> a = b.
Proof. destruct a, b; simpl; split; congruence. Qed.

Lemma tmpl_eqb_eq f g : tmpl_eqb f g = true <-> f = g.
Proof.
  destruct f as [n|n], g as [m|m]; simpl; split; try congruence;
    rewrite ?String.eqb_eq; congruence.
Qed.

Lemma ctypes_eqb_eq (l1 : list ctype) :
  Forall (fun a => forall b, ctype_eqb a b = true <-> a = b) l1 ->
  forall l2, ctypes_eqb l1 l2 = true <-> l1 = l2.
Proof.
  induction 1 as [|x l1 Hx _ IH]; intros [|y l2]; simpl; split;
    try congruence.
  - rewrite andb_true_iff, Hx, IH. intros [-> ->]. reflexivity.
  - intros E. injection E as -> ->. rewrite andb_true_iff, Hx, IH. auto.
Qed.

Lemma ctype_eqb_eq a : forall b, ctype_eqb a b = true <-> a = b.
Proof.
  induction a using ctype_nested_ind; intros [] ;
    try (simpl; split; congruence).
  - simpl. rewrite fundamental_eqb_eq. split; congruence.
  - simpl. rewrite String.eqb_eq. split; congruence.
  - change (String.eqb n name && ctypes_eqb args args0 = true
            <-> Inst n args = Inst name args0).
    rewrite andb_true_iff, String.eqb_eq, (ctypes_eqb_eq H).
    split; [intros [-> ->]; reflexivity | intros E; injection E; auto].
  - simpl. rewrite IHa. split; congruence.
  - simpl. rewrite IHa. split; congruence.
  - simpl. rewrite IHa. split; congruence.
  - simpl. rewrite IHa. split; congruence.
  - simpl. rewrite andb_true_iff, IHa, Z.eqb_eq.
    split; [intros [-> ->]; reflexivity | intros E; injection E; auto].
  - simpl. rewrite IHa. split; congruence.
  - simpl. rewrite tmpl_eqb_eq. split; congruence.
  - change (tmpl_eqb f f0 && ctypes_eqb xs xs0 = true
            <-> _template_apply f xs = _template_apply f0 xs0).
    rewrite andb_true_iff, tmpl_eqb_eq, (ctypes_eqb_eq H).
    split; [intros [-> ->]; reflexivity | intros E; injection E; auto].
  - simpl. rewrite tmpl_eqb_eq. split; congruence.
  - simpl. rewrite IHa. split; congruence.
  - simpl. rewrite tmpl_eqb_eq. split; congruence.
  - simpl. rewrite tmpl_eqb_eq. split; congruence.
Qed.

Lemma ctype_eqb_refl a : ctype_eqb a a = true.
Proof. apply ctype_eqb_eq. reflexivity. Qed.

Lemma ctype_eqb_neq a b : ctype_eqb a b = false <-> a <> b.
Proof.
  rewrite <- ctype_eqb_eq. destruct (ctype_eqb a b); split; congruence.
Qed.

Unset Implicit Arguments.
End CppFacts.

(* ================================================================== *)
(** ** The header on examples *)

Module Examples.
Import Cpp Hana Std.

(** [template_<f>() == type<f<>>] and friends, from [example/type.cpp]. *)
Example template_nullary :
  call decls (template_ f) [] = Some (returned (type (Inst "f" []))).
Proof. reflexivity. Qed.

Example template_binary :
  option_map (fun r => equal r (type (Inst "f" [x; y])))
    (call decls (template_ f) [type x; type y]) = Some (Some true).
Proof. reflexivity. Qed.

Example metafunction_add_pointer :
  call decls (metafunction (class_template "std::add_pointer")) [type int]
  = Some (returned (type (Pointer int))).
Proof. reflexivity. Qed.

Example metafunction_class_add_pointer :
  call decls (metafunction_class (Struct "quote_add_pointer")) [type int]
  = Some (returned (type (Pointer int))).
Proof. reflexivity. Qed.

(** An argument that is not a type-value and has no nested [type]: the
    call is ill-formed. *)
Example template_on_int :
  call decls (template_ f) [mkExpr (mkObject int [1]) false prvalue] = None.
Proof. reflexivity. Qed.

(** A wrong number of arguments for the template: ill-formed. *)
Example metafunction_arity :
  call decls (metafunction (class_template "std::add_pointer")) [type int; type int]
  = None.
Proof. reflexivity. Qed.

Example decltype_of_an_int :
  call decls decltype_ [mkExpr (mkObject int [1]) false prvalue]
  = Some (returned (type int)).
Proof. reflexivity. Qed.

Example trait_is_same :
  call decls (trait (class_template "std::is_same")) [type int; type int]
  = braced_init decls (is_same int int).
Proof. reflexivity. Qed.

Example trait__is_same :
  call decls (trait_ (class_template "std::is_same"))
    [mkExpr (mkObject int [1]) false prvalue; mkExpr (mkObject double [2]) true lvalue]
  = braced_init decls (is_same int double).
Proof. reflexivity. Qed.

(** The motivation of unary [+]: [decltype(std::get<1>(ts))] is a reference
    and has no nested [type]; [decltype(+std::get<1>(ts))] has. *)
Example lvalue_reference_has_no_member :
  member_type decls (decltype (mkExpr (designates (type char_t)) false lvalue)) = None
  /\ option_map (fun r => member_type decls (decltype r))
       (unary_plus (mkExpr (designates (type char_t)) false lvalue))
     = Some (Some char_t).
Proof. split; reflexivity. Qed.

(** An alias template with one parameter lifts with [template_], and not
    with [metafunction]: the class [_metafunction<f>] declares
    [using apply = f<xs...>;]. *)
Example template_of_fixed_arity_alias :
  call decls (template_ (alias_template "add_pointer_alias")) [type int]
  = Some (returned (type (add_pointer int)))
  /\ member_type decls (add_pointer int) = Some (Pointer int).
Proof. split; reflexivity. Qed.

Example metafunction_of_fixed_arity_alias :
  call decls (metafunction (alias_template "add_pointer_alias")) [type int] = None
  /\ classical_apply decls (metafunction (alias_template "add_pointer_alias")) [int]
     = None.
Proof. split; reflexivity. Qed.

Example template_of_variadic_alias :
  call decls (template_ (alias_template "std::void_t")) [type int; type double]
  = Some (returned (type (Fundamental void_))).
Proof. reflexivity. Qed.

(** By-value parameters: an lvalue of a class that cannot be copied is no
    argument; a prvalue is; a move-only class also accepts an xvalue. *)
Example decltype_of_noncopyable :
  call decls decltype_ [mkExpr (mkObject noncopyable []) false lvalue] = None
  /\ call decls decltype_ [mkExpr (mkObject noncopyable []) false xvalue] = None
  /\ call decls decltype_ [mkExpr (mkObject noncopyable []) false prvalue]
     = Some (returned (type noncopyable)).
Proof. repeat split. Qed.

Example decltype_of_move_only :
  call decls decltype_ [mkExpr (mkObject move_only []) false id_expression] = None
  /\ call decls decltype_ [mkExpr (mkObject move_only []) true xvalue] = None
  /\ call decls decltype_ [mkExpr (mkObject move_only []) false xvalue]
     = Some (returned (type move_only)).
Proof. repeat split. Qed.

Example trait_add_pointer :
  call decls (trait (class_template "std::add_pointer")) [type int]
  = braced_init decls (add_pointer int)
  /\ braced_init decls (add_pointer int)
     = Some (mkExpr (mkObject (add_pointer int) []) false prvalue).
Proof. split; reflexivity. Qed.

End Examples.

(* ================================================================== *)
(** ** Properties of the facility *)

Module Properties.
Import Cpp Hana CppFacts.

(** *** Shared steps *)

Lemma deduced_type T : deduced (type T) = _type T.
Proof. reflexivity. Qed.

Lemma deduced_type_object T c fm :
  deduced (mkExpr (designates (type T)) c fm) = _type T.
Proof. destruct c, fm; reflexivity. Qed.

Lemma returned_type R :
  returned (type R) = mkExpr (mkObject (_type R) []) false prvalue.
Proof. reflexivity. Qed.

Lemma equal_type_values a b A B :
  deduced a = _type A -> deduced b = _type B ->
  equal a b = Some (ctype_eqb A B).
Proof. unfold equal. intros -> ->. reflexivity. Qed.

Lemma equal_returned_type R : equal (returned (type R)) (type R) = Some true.
Proof.
  rewrite (equal_type_values _ _ R R) by reflexivity.
  now rewrite ctype_eqb_refl.
Qed.

(** The parameter pack deduced from [type<T1>, ..., type<Tn>], and its
    expansion [typename xs::type...]. *)
Lemma deduced_types Ts : map deduced (map type Ts) = map _type Ts.
Proof. rewrite map_map. apply map_ext. intros; apply deduced_type. Qed.

Lemma traverse_member_type D Ts :
  traverse (member_type D) (map _type Ts) = Some Ts.
Proof.
  induction Ts as [|T Ts IH]; simpl; [reflexivity|].
  rewrite IH. reflexivity.
Qed.

(** Type-values are copyable: they initialise the parameters, whose
    types are the classes [_type<T1>::_, ..., _type<Tn>::_]. *)
Lemma parameters_of_types D Ts :
  traverse (parameter D) (map type Ts)
  = Some (map (fun T => mkObject (_type T) []) Ts).
Proof.
  induction Ts as [|T Ts IH]; simpl; [reflexivity|].
  rewrite IH. reflexivity.
Qed.

Lemma obj_types_of_types Ts :
  map obj_type (map (fun T => mkObject (_type T) []) Ts) = map _type Ts.
Proof. rewrite map_map. reflexivity. Qed.

Ltac on_type_values D Ts :=
  unfold call; rewrite (parameters_of_types D Ts); simpl bind;
  cbv beta iota delta [deduced decay decltype remove_reference remove_cv cv
    template_ metafunction metafunction_class trait trait_ decltype_
    constexpr_variable designates is_const form obj_type];
  unfold _template_call, _metafunction_call, _metafunction_class_call,
    _trait_call;
  rewrite ?(obj_types_of_types Ts), ?(traverse_member_type D Ts).

Lemma call_template D f Ts :
  call D (template_ f) (map type Ts)
  = R <- instantiate D f Ts ;; Some (returned (type R)).
Proof. on_type_values D Ts. reflexivity. Qed.

Lemma call_metafunction D f Ts :
  call D (metafunction f) (map type Ts)
  = if accepts_pack_expansion D f
    then F <- instantiate D f Ts ;; R <- member_type D F ;; Some (returned (type R))
    else None.
Proof. on_type_values D Ts. reflexivity. Qed.

Lemma call_metafunction_class D F Ts :
  call D (metafunction_class F) (map type Ts)
  = A <- member_apply D F Ts ;; R <- member_type D A ;; Some (returned (type R)).
Proof. on_type_values D Ts. reflexivity. Qed.

Lemma call_trait D f Ts :
  call D (trait f) (map type Ts)
  = R <- instantiate D f Ts ;; c <- braced_init D R ;; Some (returned c).
Proof. on_type_values D Ts. reflexivity. Qed.

(** The classical side of the three [Metafunction]s. *)
Lemma classical_template D f Ts :
  classical_apply D (template_ f) Ts = instantiate D f Ts.
Proof. reflexivity. Qed.

Lemma classical_metafunction D f Ts :
  classical_apply D (metafunction f) Ts
  = if accepts_pack_expansion D f
    then F <- instantiate D f Ts ;; member_type D F
    else None.
Proof.
  unfold classical_apply. simpl. now destruct (accepts_pack_expansion D f).
Qed.

Lemma classical_metafunction_class D F Ts :
  classical_apply D (metafunction_class F) Ts
  = A <- member_apply D F Ts ;; member_type D A.
Proof. reflexivity. Qed.

(** [T{}] is never the initialisation of a reference: the prvalue it gives
    is handed back as it is. *)
Lemma remove_cv_idempotent t : remove_cv (remove_cv t) = remove_cv t.
Proof. induction t; simpl; auto. Qed.

Lemma value_init_no_reference D t r :
  value_init D t = Some r -> remove_reference (remove_cv t) = remove_cv t.
Proof.
  induction t; simpl; intros H; try reflexivity; try discriminate; auto.
Qed.

Lemma returned_braced_init D t c : braced_init D t = Some c -> returned c = c.
Proof.
  unfold braced_init. destruct (value_init D t) as [r|] eqn:Hr; [|discriminate].
  simpl. intros [= <-]. unfold returned, deduced, decltype, decay; simpl.
  rewrite (value_init_no_reference D t r Hr), remove_cv_idempotent.
  reflexivity.
Qed.

Lemma layers_remove_cv t : (layers (remove_cv t) <= layers t)%nat.
Proof. induction t; simpl; lia. Qed.

Lemma remove_cv_not_wrapped t : remove_cv t <> _type t.
Proof.
  intros E. apply (f_equal layers) in E. simpl in E.
  pose proof (layers_remove_cv t). lia.
Qed.

(** *** Type-values *)

(** C1: for all types [A] and [B], comparing [type<A>] with [type<B>] is
    always well-formed, answers true exactly when [A] and [B] are the
    identical type, and answers what [std::is_same<A, B>] answers (the
    base characteristic [std::is_same<A, B>::type] is the
    [integral_constant<bool, b>] of the same [b]). *)
Theorem type_equal_iff_identical (A B : ctype) :
  exists b : bool,
    equal (type A) (type B) = Some b
    /\ (b = true <-> A = B)
    /\ member_type Std.decls (Std.is_same A B) = Some (Std.bool_constant b).
Proof.
  exists (ctype_eqb A B). split; [|split].
  - apply equal_type_values; reflexivity.
  - apply ctype_eqb_eq.
  - reflexivity.
Qed.

(** C9: [decltype(type<T>)::type] is [T]. The declared type of the variable
    [type<T>] is the const-qualified class [_type<T>::_], whose nested
    [type] is [T]: wrapping a type and looking it up is the identity. *)
Theorem type_nested_lookup (D : declarations) (T : ctype) :
  decltype (type T) = Const (_type T)
  /\ member_type D (decltype (type T)) = Some T.
Proof. split; reflexivity. Qed.

(** *** The lifters *)

(** C2: the three [Metafunction] lifters satisfy the documented law
    [f(type<T1>, ..., type<Tn>) == type<decltype(f)::apply<T1, ..., Tn>::type>]
    for every sequence of types. *)
Theorem lifters_satisfy_Metafunction_law (D : declarations) (Ts : list ctype) :
  (forall f, Metafunction_law D (template_ f) Ts)
  /\ (forall f, Metafunction_law D (metafunction f) Ts)
  /\ (forall F, Metafunction_law D (metafunction_class F) Ts).
Proof.
  unfold Metafunction_law. split; [|split]; intros f.
  - rewrite classical_template, call_template.
    destruct (instantiate D f Ts) as [R|]; simpl; [|reflexivity].
    eexists; split; [reflexivity | apply equal_returned_type].
  - rewrite classical_metafunction, call_metafunction.
    destruct (accepts_pack_expansion D f); [|reflexivity].
    destruct (instantiate D f Ts) as [F|]; simpl; [|reflexivity].
    destruct (member_type D F) as [R|]; simpl; [|reflexivity].
    eexists; split; [reflexivity | apply equal_returned_type].
  - rewrite classical_metafunction_class, call_metafunction_class.
    destruct (member_apply D f Ts) as [A|]; simpl; [|reflexivity].
    destruct (member_type D A) as [R|]; simpl; [|reflexivity].
    eexists; split; [reflexivity | apply equal_returned_type].
Qed.

(** C3: where [f<x1, ..., xn>] is well-formed and names [R],
    [template_<f>(type<x1>, ..., type<xn>)] is a prvalue copy of the object
    [type<R>]: it designates the same object, its class is [_type<R>::_],
    its nested [type] is exactly [R], it compares equal to [type<R>], and
    [R] is also [decltype(template_<f>)::apply<x1, ..., xn>::type]. *)
Theorem template_call_exact (D : declarations) (f : tmpl) (xs : list ctype) (R : ctype) :
  instantiate D f xs = Some R ->
  exists r,
    call D (template_ f) (map type xs) = Some r
    /\ designates r = designates (type R)
    /\ member_type D (decltype r) = Some R
    /\ equal r (type R) = Some true
    /\ classical_apply D (template_ f) xs = Some R.
Proof.
  intros HR. exists (returned (type R)).
  rewrite call_template, classical_template, HR.
  repeat split. apply equal_returned_type.
Qed.

Lemma template_call_exact_witness :
  exists r,
    call Std.decls (template_ Std.f) (map type [Std.x; Std.y]) = Some r
    /\ designates r = designates (type (Inst "f" [Std.x; Std.y]))
    /\ member_type Std.decls (decltype r) = Some (Inst "f" [Std.x; Std.y])
    /\ equal r (type (Inst "f" [Std.x; Std.y])) = Some true
    /\ classical_apply Std.decls (template_ Std.f) [Std.x; Std.y]
       = Some (Inst "f" [Std.x; Std.y]).
Proof.
  apply (template_call_exact Std.decls Std.f [Std.x; Std.y]).
  reflexivity.
Defined.

(** C4: for [f] a class template (an MPL metafunction), or an alias template
    declared with a parameter pack, so that the class [_metafunction<f>] is
    well-formed: where [f<x1, ..., xn>] is well-formed, names [F], and
    [F::type] names [R], [metafunction<f>(type<x1>, ..., type<xn>)] is a
    prvalue copy of [type<R>], while [template_<f>] on the same arguments
    gives a copy of [type<F>]: one nested lookup less. *)
Theorem metafunction_call_nested (D : declarations) (f : tmpl) (xs : list ctype) (F R : ctype) :
  accepts_pack_expansion D f = true ->
  instantiate D f xs = Some F ->
  member_type D F = Some R ->
  exists r t,
    call D (metafunction f) (map type xs) = Some r
    /\ designates r = designates (type R)
    /\ equal r (type R) = Some true
    /\ call D (template_ f) (map type xs) = Some t
    /\ designates t = designates (type F)
    /\ (t' <- member_type D (decltype t) ;; member_type D t') = member_type D (decltype r).
Proof.
  intros Hf HF HR. exists (returned (type R)), (returned (type F)).
  rewrite call_metafunction, call_template, Hf, HF. simpl. rewrite HR.
  repeat split. apply equal_returned_type.
Qed.

Lemma metafunction_call_nested_witness :
  exists r t,
    call Std.decls (metafunction (class_template "std::add_pointer"))
      (map type [Std.int]) = Some r
    /\ designates r = designates (type (Pointer Std.int))
    /\ equal r (type (Pointer Std.int)) = Some true
    /\ call Std.decls (template_ (class_template "std::add_pointer"))
         (map type [Std.int]) = Some t
    /\ designates t = designates (type (Std.add_pointer Std.int))
    /\ (t' <- member_type Std.decls (decltype t) ;; member_type Std.decls t')
       = member_type Std.decls (decltype r).
Proof.
  apply (metafunction_call_nested Std.decls
           (class_template "std::add_pointer") [Std.int]
           (Std.add_pointer Std.int) (Pointer Std.int));
    reflexivity.
Defined.

(** C5: where [f::apply<x1, ..., xn>] is well-formed, names [A], and
    [A::type] names [R], [metafunction_class<f>(type<x1>, ..., type<xn>)]
    is a prvalue copy of [type<R>]: [f] is used through its nested [apply]
    only. *)
Theorem metafunction_class_call_nested (D : declarations) (F : ctype) (xs : list ctype) (A R : ctype) :
  member_apply D F xs = Some A ->
  member_type D A = Some R ->
  exists r,
    call D (metafunction_class F) (map type xs) = Some r
    /\ designates r = designates (type R)
    /\ member_type D (decltype r) = Some R
    /\ equal r (type R) = Some true.
Proof.
  intros HA HR. exists (returned (type R)).
  rewrite call_metafunction_class, HA. simpl. rewrite HR.
  repeat split. apply equal_returned_type.
Qed.

Lemma metafunction_class_call_nested_witness :
  exists r,
    call Std.decls (metafunction_class (Struct "quote_add_pointer"))
      (map type [Std.int]) = Some r
    /\ designates r = designates (type (Pointer Std.int))
    /\ member_type Std.decls (decltype r) = Some (Pointer Std.int)
    /\ equal r (type (Pointer Std.int)) = Some true.
Proof.
  apply (metafunction_class_call_nested Std.decls
           (Struct "quote_add_pointer") [Std.int]
           (Inst "quote_add_pointer::apply" [Std.int]) (Pointer Std.int));
    reflexivity.
Defined.

(** *** Traits *)

Section Trait.
Variable D : declarations.

(** The equality of the constants [f] produces: any test on objects. *)
Variable constant_eq : object -> object -> bool.

(** C6: where [f<x1, ..., xn>] is well-formed, names [R], and [R{}] is
    well-formed with value [c], [trait<f>(type<x1>, ..., type<xn>)] is
    [c]: a prvalue of class [R] itself, not the object [type<R>]; where the
    equality of the constant holds between [c] and itself, it holds between
    the result and [c]. *)
Theorem trait_call_default_constructed (f : tmpl) (xs : list ctype) (R : ctype) (c : expression) :
  instantiate D f xs = Some R ->
  braced_init D R = Some c ->
  constant_eq (designates c) (designates c) = true ->
  exists r,
    call D (trait f) (map type xs) = Some r
    /\ r = c
    /\ constant_eq (designates r) (designates c) = true
    /\ decltype r = remove_cv R
    /\ designates r <> designates (type R).
Proof.
  intros HR Hc Heq. exists c.
  rewrite call_trait, HR. simpl. rewrite Hc. simpl.
  rewrite (returned_braced_init D R c Hc).
  unfold braced_init in Hc. destruct (value_init D R) as [v|]; [|discriminate].
  simpl in Hc. injection Hc as <-. simpl.
  repeat split; auto.
  intros E. injection E as E _. now apply remove_cv_not_wrapped in E.
Qed.

End Trait.

Lemma trait_call_default_constructed_witness :
  exists r,
    call Std.decls (trait (class_template "std::is_same"))
      (map type [Std.int; Std.int]) = Some r
    /\ r = mkExpr (mkObject (Std.is_same Std.int Std.int) []) false prvalue
    /\ Std.constant_equal Std.decls (designates r)
         (designates (mkExpr (mkObject (Std.is_same Std.int Std.int) []) false prvalue))
       = true
    /\ decltype r = remove_cv (Std.is_same Std.int Std.int)
    /\ designates r <> designates (type (Std.is_same Std.int Std.int)).
Proof.
  apply (trait_call_default_constructed Std.decls
           (Std.constant_equal Std.decls)
           (class_template "std::is_same") [Std.int; Std.int]
           (Std.is_same Std.int Std.int));
    reflexivity.
Defined.

(** *** Unary plus *)

(** C7: for every type [T] and every expression designating the object
    [type<T>] (const or not; the name of a variable, an lvalue, an xvalue or
    a prvalue), unary [+] is well-formed and gives a non-const prvalue of
    class [_type<T>::_] designating the same object: its nested [type] is
    [T], it compares equal to [type<T>], and [+] leaves it as it is. *)
Theorem unary_plus_type_value (D : declarations) (T : ctype) (c : bool) (fm : expression_form) :
  exists r,
    unary_plus (mkExpr (designates (type T)) c fm) = Some r
    /\ designates r = designates (type T)
    /\ decltype r = _type T
    /\ member_type D (decltype r) = Some T
    /\ equal r (type T) = Some true
    /\ unary_plus r = Some r.
Proof.
  exists (mkExpr (mkObject (_type T) []) false prvalue).
  unfold unary_plus. rewrite deduced_type_object.
  repeat split. apply equal_returned_type.
Qed.

(** *** A scenario *)

(** C8 as stated fails: the result of
    [template_<std::is_same>(type<int>, type<int>)] is not the type-value
    of the compile-time-true constant [std::true_type] (it compares unequal
    to it and is another object), nor is the result on [type<int>],
    [type<double>] the type-value of [std::false_type]. *)
Lemma template_is_same_not_the_constant :
  (exists r,
     call Std.decls (template_ (class_template "std::is_same"))
       [type Std.int; type Std.int] = Some r
     /\ equal r (type Std.true_type) = Some false
     /\ designates r <> designates (type Std.true_type))
  /\ (exists r,
     call Std.decls (template_ (class_template "std::is_same"))
       [type Std.int; type Std.double] = Some r
     /\ equal r (type Std.false_type) = Some false
     /\ designates r <> designates (type Std.false_type)).
Proof.
  split; eexists; (split; [reflexivity|]); split;
    try reflexivity; discriminate.
Qed.

(** C8, amended: [template_<std::is_same>(type<int>, type<int>)] is (a
    prvalue copy of) the type-value of the class [std::is_same<int, int>]
    itself; it is the nested [type] of what the result represents,
    [decltype(r)::type::type], that is the compile-time-true constant
    [std::true_type].  On [type<int>] and [type<double>] the result is the
    type-value of [std::is_same<int, double>], and the nested [type] of
    what it represents is [std::false_type]. *)
Theorem template_is_same_scenario :
  (exists r,
     call Std.decls (template_ (class_template "std::is_same"))
       [type Std.int; type Std.int] = Some r
     /\ designates r = designates (type (Std.is_same Std.int Std.int))
     /\ equal r (type (Std.is_same Std.int Std.int)) = Some true
     /\ (R <- member_type Std.decls (decltype r) ;; member_type Std.decls R)
        = Some Std.true_type)
  /\ (exists r,
     call Std.decls (template_ (class_template "std::is_same"))
       [type Std.int; type Std.double] = Some r
     /\ designates r = designates (type (Std.is_same Std.int Std.double))
     /\ equal r (type (Std.is_same Std.int Std.double)) = Some true
     /\ (R <- member_type Std.decls (decltype r) ;; member_type Std.decls R)
        = Some Std.false_type).
Proof.
  split; eexists; repeat split.
Qed.

(** *** Arguments are used for their types only *)


Lemma parameters_need D args ps :
  traverse (parameter D) args = Some ps ->
  forallb (copy_initializes D) args = true.
Proof.
  revert ps. induction args as [|a args IH]; simpl; [reflexivity|].
  intros ps. unfold parameter at 1.
  destruct (copy_initializes D a); simpl; [|discriminate].
  destruct (traverse (parameter D) args) as [qs|]; [|discriminate].
  intros _. apply (IH qs). reflexivity.
Qed.





End Properties.

(* ================================================================== *)
(** ** How the function objects behave beyond type-value arguments, and
       how they compose *)

Module Usage.
Import Cpp Hana CppFacts Properties.

(** *** Shared steps *)



Lemma traverse_None {A B} (g : A -> option B) l a :
  In a l -> g a = None -> traverse g l = None.
Proof.
  induction l as [|b l IH]; simpl; [tauto|].
  intros [->|Hin] Ha.
  - now rewrite Ha.
  - rewrite (IH Hin Ha). now destruct (g b).
Qed.

Lemma traverse_Some {A B} (g : A -> option B) (h : A -> B) l :
  (forall a, g a = Some (h a)) -> traverse g l = Some (map h l).
Proof.
  intros H. induction l as [|a l IH]; simpl; [reflexivity|].
  now rewrite H, IH.
Qed.

Lemma type_not_itself T : _type T <> T.
Proof.
  intros E. apply (f_equal layers) in E. simpl in E. lia.
Qed.

(** A call of a [Metafunction] variable on type-values, in one equation. *)
Lemma call_Metafunction D F Ts :
  datatype F = Some Metafunction ->
  call D (constexpr_variable F) (map type Ts)
  = R <- classical_apply D (constexpr_variable F) Ts ;; Some (returned (type R)).
Proof.
  destruct F; intros H; try discriminate H; clear H.
  - change (constexpr_variable (_template f)) with (template_ f).
    rewrite call_template, classical_template. reflexivity.
  - change (constexpr_variable (_metafunction f)) with (metafunction f).
    rewrite call_metafunction, classical_metafunction.
    destruct (accepts_pack_expansion D f); [|reflexivity].
    now destruct (instantiate D f Ts).
  - change (constexpr_variable (_metafunction_class F)) with (metafunction_class F).
    rewrite call_metafunction_class, classical_metafunction_class.
    now destruct (member_apply D F Ts).
Qed.

(** The parameter objects have the deduced types. *)
Lemma parameters_types D args ps :
  traverse (parameter D) args = Some ps -> map obj_type ps = map deduced args.
Proof.
  revert ps. induction args as [|a args IH]; simpl.
  - now intros ps [= <-].
  - intros ps. unfold parameter at 1.
    destruct (copy_initializes D a); simpl; [|discriminate].
    destruct (traverse (parameter D) args) as [qs|]; simpl; [|discriminate].
    intros [= <-]. simpl. now rewrite (IH qs).
Qed.

(** The results of [decltype_] are type-values: they initialise the
    parameters of a further call. *)
Lemma parameters_of_decltype_results D (ps : list object) :
  traverse (parameter D) (map (fun p => returned (type (obj_type p))) ps)
  = Some (map (fun p => mkObject (_type (obj_type p)) []) ps).
Proof.
  induction ps as [|p ps IH]; simpl; [reflexivity|].
  rewrite IH. reflexivity.
Qed.

Lemma decltype__on_each D args :
  traverse (fun a => call D decltype_ [a]) args
  = ps <- traverse (parameter D) args ;;
    Some (map (fun p => returned (type (obj_type p))) ps).
Proof.
  induction args as [|a args IH]; simpl; [reflexivity|].
  rewrite IH. unfold call at 1. simpl.
  destruct (parameter D a) as [p|]; simpl; [|reflexivity].
  now destruct (traverse (parameter D) args).
Qed.

(** *** [decltype_] *)




(** X3: [decltype_] is not the identity on type-values: [decltype_(type<T>)]
    is the type-value of the class [_type<T>::_] of the object, whose nested
    [type] is that class and not [T]. *)
Theorem decltype__of_type_value (D : declarations) (T : ctype) :
  exists r,
    call D decltype_ [type T] = Some r
    /\ designates r = designates (type (_type T))
    /\ member_type D (decltype r) = Some (_type T)
    /\ member_type D (decltype r) <> Some T
    /\ designates r <> designates (type T).
Proof.
  exists (returned (type (_type T))). repeat split.
  - simpl. intros [= E]. now apply type_not_itself in E.
  - simpl. intros [= E]. now apply type_not_itself in E.
Qed.

(** *** The lifters against each other *)

(** X4: [trait_<f>] is [trait<f>] after [decltype_] on each argument:
    [trait_<f>(xs...)] is [trait<f>(decltype_(xs)...)], for arguments of
    any kind, well-formed or not. *)
Theorem trait__is_trait_after_decltype_ (D : declarations) (f : tmpl) (args : list expression) :
  call D (trait_ f) args
  = ts <- traverse (fun a => call D decltype_ [a]) args ;; call D (trait f) ts.
Proof.
  rewrite decltype__on_each. unfold call at 1.
  destruct (traverse (parameter D) args) as [ps|]; simpl bind; [|reflexivity].
  unfold call. rewrite parameters_of_decltype_results. simpl bind.
  change (deduced (trait_ f)) with (_trait_ f).
  change (deduced (trait f)) with (_trait f). cbv iota beta.
  unfold _trait_call, _trait__call.
  replace (map obj_type (map (fun p => mkObject (_type (obj_type p)) []) ps))
    with (map _type (map obj_type ps)) by (now rewrite !map_map).
  rewrite traverse_member_type. reflexivity.
Qed.

(** X5: [trait<f>(ts...)] default-constructs the type [template_<f>(ts...)]
    represents: it is [R{}] for [R] the nested [type] of the result of
    [template_<f>] on the same arguments, and ill-formed where that call
    is. *)
Theorem trait_constructs_what_template_names (D : declarations) (f : tmpl) (args : list expression) :
  call D (trait f) args
  = r <- call D (template_ f) args ;;
    R <- member_type D (decltype r) ;;
    c <- braced_init D R ;;
    Some (returned c).
Proof.
  unfold call. simpl.
  destruct (traverse (parameter D) args) as [ps|]; simpl; [|reflexivity].
  unfold _trait_call, _template_call.
  destruct (traverse (member_type D) (map obj_type ps)) as [ts|]; simpl;
    [|reflexivity].
  destruct (instantiate D f ts) as [R|]; reflexivity.
Qed.

(** X6: for [f] a class template or an alias template declared with a
    parameter pack, [metafunction<f>(ts...)] is one more nested lookup on
    what [template_<f>(ts...)] represents, for arguments of any kind: it is
    the type-value of [F::type] for [F] the nested [type] of the result of
    [template_<f>], and ill-formed where that call or that lookup is.  For
    an alias template [f] with a fixed number of parameters every call of
    [metafunction<f>] is ill-formed, also where [template_<f>] is not. *)
Theorem metafunction_looks_into_template_ (D : declarations) (f : tmpl) (args : list expression) :
  call D (metafunction f) args
  = if accepts_pack_expansion D f
    then r <- call D (template_ f) args ;;
         F <- member_type D (decltype r) ;;
         R <- member_type D F ;;
         Some (returned (type R))
    else None.
Proof.
  unfold call. simpl. unfold _metafunction_call, _template_call.
  destruct (accepts_pack_expansion D f).
  - destruct (traverse (parameter D) args) as [ps|]; simpl; [|reflexivity].
    destruct (traverse (member_type D) (map obj_type ps)) as [ts|]; simpl;
      [|reflexivity].
    destruct (instantiate D f ts) as [F|]; reflexivity.
  - now destruct (traverse (parameter D) args).
Qed.

(** X7: a function object whose datatype is [Metafunction] returns a
    [Type]: whatever the arguments, a well-formed call is a prvalue copy of
    some [type<R>], so that [decltype(...)::type] works on it without unary
    [+], which leaves it as it is. *)
Theorem Metafunction_returns_Type (D : declarations) (callee : expression) (args : list expression) (r : expression) :
  datatype (deduced callee) = Some Metafunction ->
  call D callee args = Some r ->
  exists R,
    r = returned (type R)
    /\ datatype (deduced r) = Some Type_
    /\ member_type D (decltype r) = Some R
    /\ unary_plus r = Some r.
Proof.
  unfold call.
  destruct (traverse (parameter D) args) as [ps|]; simpl bind;
    [|intros _; discriminate].
  destruct (deduced callee); simpl; try discriminate; intros _.
  - unfold _template_call.
    destruct (traverse (member_type D) (map obj_type ps)) as [ts|];
      simpl; [|discriminate].
    destruct (instantiate D f ts) as [R|]; simpl; [|discriminate].
    intros [= <-]. exists R. repeat split.
  - unfold _metafunction_call.
    destruct (accepts_pack_expansion D f); [|discriminate].
    destruct (traverse (member_type D) (map obj_type ps)) as [ts|];
      simpl; [|discriminate].
    destruct (instantiate D f ts) as [F|]; simpl; [|discriminate].
    destruct (member_type D F) as [R|]; simpl; [|discriminate].
    intros [= <-]. exists R. repeat split.
  - unfold _metafunction_class_call.
    destruct (traverse (member_type D) (map obj_type ps)) as [ts|];
      simpl; [|discriminate].
    destruct (member_apply D c ts) as [A|]; simpl; [|discriminate].
    destruct (member_type D A) as [R|]; simpl; [|discriminate].
    intros [= <-]. exists R. repeat split.
Qed.

Lemma Metafunction_returns_Type_witness :
  exists R,
    returned (type (Pointer Std.int)) = returned (type R)
    /\ datatype (deduced (returned (type (Pointer Std.int)))) = Some Type_
    /\ member_type Std.decls (decltype (returned (type (Pointer Std.int)))) = Some R
    /\ unary_plus (returned (type (Pointer Std.int)))
       = Some (returned (type (Pointer Std.int))).
Proof.
  apply (Metafunction_returns_Type Std.decls
           (metafunction (class_template "std::add_pointer"))
           [type Std.int] (returned (type (Pointer Std.int))));
    reflexivity.
Defined.

(** X8: a [Metafunction] of the header is a metafunction class: lifting the
    class [decltype(g)] of one of the variables [template_<f>],
    [metafunction<f>], [metafunction_class<f>] with [metafunction_class]
    gives a function object that does on every argument list what [g]
    does. *)
Theorem metafunction_class_of_Metafunction (D : declarations) (F : ctype) (args : list expression) :
  datatype F = Some Metafunction ->
  call D (metafunction_class (decltype (constexpr_variable F))) args
  = call D (constexpr_variable F) args.
Proof.
  destruct F; intros H; try discriminate H; clear H;
    unfold call; simpl;
    (destruct (traverse (parameter D) args) as [ps|]; simpl; [|reflexivity]);
    unfold _metafunction_class_call, _template_call, _metafunction_call;
    unfold decltype, constexpr_variable; simpl;
    try destruct (accepts_pack_expansion D f);
    destruct (traverse (member_type D) (map obj_type ps)) as [ts|];
    reflexivity.
Qed.

Lemma metafunction_class_of_Metafunction_witness :
  call Std.decls
    (metafunction_class
       (decltype (constexpr_variable (_metafunction (class_template "std::add_pointer")))))
    [type Std.int]
  = call Std.decls
      (constexpr_variable (_metafunction (class_template "std::add_pointer")))
      [type Std.int].
Proof.
  apply (metafunction_class_of_Metafunction Std.decls
           (_metafunction (class_template "std::add_pointer")) [type Std.int]).
  reflexivity.
Defined.

(** X9: [trait<f>], [trait_<f>] and [decltype_] are not metafunction
    classes: their classes have no nested [apply], so their classical
    application is ill-formed on every list of types, and no call of
    [metafunction_class] lifted from one of these classes is well-formed. *)
Theorem traits_are_no_metafunction_classes (D : declarations) (f : tmpl) (Ts : list ctype) (args : list expression) :
  classical_apply D (trait f) Ts = None
  /\ classical_apply D (trait_ f) Ts = None
  /\ classical_apply D decltype_ Ts = None
  /\ call D (metafunction_class (decltype (trait f))) args = None
  /\ call D (metafunction_class (decltype (trait_ f))) args = None
  /\ call D (metafunction_class (decltype decltype_)) args = None.
Proof.
  repeat split; try reflexivity;
    unfold call; simpl;
    (destruct (traverse (parameter D) args) as [ps|]; simpl; [|reflexivity]);
    unfold _metafunction_class_call;
    destruct (traverse (member_type D) (map obj_type ps)); reflexivity.
Qed.

(** *** Ill-formed uses *)

(** X10: the four lifters that expand [typename xs::type...] need every
    argument to have a nested [type]: one argument whose class has none
    (an [int], say) makes the call ill-formed, whatever the template and
    the other arguments. *)
Theorem lifters_need_nested_type (D : declarations) (f : tmpl) (F : ctype) (a : expression) (args : list expression) :
  In a args ->
  member_type D (deduced a) = None ->
  call D (template_ f) args = None
  /\ call D (metafunction f) args = None
  /\ call D (metafunction_class F) args = None
  /\ call D (trait f) args = None.
Proof.
  intros Hin Ha.
  assert (Ht : traverse (member_type D) (map deduced args) = None)
    by (apply (traverse_None _ _ (deduced a)); [now apply in_map | exact Ha]).
  unfold call. simpl.
  destruct (traverse (parameter D) args) as [ps|] eqn:Hps; simpl;
    [|repeat split].
  unfold _template_call, _metafunction_call, _metafunction_class_call, _trait_call.
  rewrite (parameters_types D args ps Hps), Ht.
  destruct (accepts_pack_expansion D f); repeat split.
Qed.

Lemma lifters_need_nested_type_witness :
  call Std.decls (template_ Std.f)
    [type Std.x; mkExpr (mkObject Std.int [1]) false prvalue] = None
  /\ call Std.decls (metafunction Std.f)
       [type Std.x; mkExpr (mkObject Std.int [1]) false prvalue] = None
  /\ call Std.decls (metafunction_class (Struct "quote_add_pointer"))
       [type Std.x; mkExpr (mkObject Std.int [1]) false prvalue] = None
  /\ call Std.decls (trait Std.f)
       [type Std.x; mkExpr (mkObject Std.int [1]) false prvalue] = None.
Proof.
  apply (lifters_need_nested_type Std.decls Std.f (Struct "quote_add_pointer")
           (mkExpr (mkObject Std.int [1]) false prvalue)).
  - simpl. right. left. reflexivity.
  - reflexivity.
Defined.



(** *** Composition *)

(** X12: calls of [Metafunction]s nest as their classical applications do:
    for two of the lifted variables [g1] and [g2], where
    [decltype(g1)::apply<Ts...>::type] is [R] and
    [decltype(g2)::apply<R>::type] is [S], the call [g2(g1(type<Ts>...))] is
    well-formed and is a copy of [type<S>]. *)
Theorem Metafunctions_compose (D : declarations) (F G : ctype) (Ts : list ctype) (R S : ctype) :
  datatype F = Some Metafunction ->
  datatype G = Some Metafunction ->
  classical_apply D (constexpr_variable F) Ts = Some R ->
  classical_apply D (constexpr_variable G) [R] = Some S ->
  exists r s,
    call D (constexpr_variable F) (map type Ts) = Some r
    /\ call D (constexpr_variable G) [r] = Some s
    /\ designates s = designates (type S)
    /\ member_type D (decltype s) = Some S.
Proof.
  intros HF HG HR HS.
  exists (returned (type R)), (returned (type S)).
  rewrite (call_Metafunction D F Ts HF), HR.
  change (call D (constexpr_variable G) [returned (type R)])
    with (call D (constexpr_variable G) (map type [R])).
  rewrite (call_Metafunction D G [R] HG), HS.
  repeat split.
Qed.

Lemma Metafunctions_compose_witness :
  exists r s,
    call Std.decls
      (constexpr_variable (_metafunction (class_template "std::add_pointer")))
      (map type [Std.int]) = Some r
    /\ call Std.decls
         (constexpr_variable (_metafunction_class (Struct "quote_add_pointer")))
         [r] = Some s
    /\ designates s = designates (type (Pointer (Pointer Std.int)))
    /\ member_type Std.decls (decltype s) = Some (Pointer (Pointer Std.int)).
Proof.
  apply (Metafunctions_compose Std.decls
           (_metafunction (class_template "std::add_pointer"))
           (_metafunction_class (Struct "quote_add_pointer"))
           [Std.int] (Pointer Std.int) (Pointer (Pointer Std.int)));
    reflexivity.
Defined.

End Usage.
